(** * Cloud-SQL-Connection: the pets service of [main.py]

    A shallow embedding of [main.py] (a Flask view over a SQLAlchemy pool
    whose credentials come from Secret Manager) and the proofs of the
    properties the specification states about it.

    The three libraries the module calls (the Secret Manager client,
    SQLAlchemy and Flask) are the boundary of the model: every call into
    them is answered by an oracle of the environment, which either returns
    a value or raises, and every call is written to a log together with the
    exception it raised, if any.  The program itself is a computation in a
    small state-and-exception monad in which, as in Python, the state
    survives an exception. *)

From Stdlib Require Import Strings.String Strings.Ascii Strings.Byte List ZArith NArith Bool Arith Lia.
Import ListNotations.
Set Warnings "-register-all".
Open Scope string_scope.

(** ** Python values and JSON values *)

Inductive json : Type :=
| JNull
| JNumber (z : Z)
| JReal (literal : string)
| JString (s : string)
| JArray (elems : list json)
| JObject (members : list (string * json)).

(** The Python objects the view handles: the cells of a result row and
    the list of dicts it builds from them.  A cell is whatever the driver
    made of the column: [None] for SQL NULL, an [int], a [str] (kept as
    the UTF-8 encoding of its text), [bytes] for a binary column, or an
    object of another type ([float], [Decimal], [date], [datetime],
    [timedelta], ...).  An object of another type comes with what the
    application's JSON encoder makes of it: a JSON value (a [date] is
    written as the string of its HTTP date, a [float] as a number), or
    nothing when the encoder refuses the type.  A dict is the list of its
    items in insertion order. *)
Inductive pyobj : Type :=
| PyNone
| PyInt (z : Z)
| PyStr (s : string)
| PyBytes (data : list byte)
| PyOther (type_name : string) (encoded : option json)
| PyList (items : list pyobj)
| PyDict (items : list (string * pyobj)).

(** The exceptions that can travel through the module.  [ExternalError]
    stands for whatever a library call raises (a Secret Manager API error,
    a SQLAlchemy error, a pool timeout); the others are raised by the
    interpreter on the module's own expressions. *)
Inductive exn : Type :=
| ExternalError (kind : string)
| UnicodeDecodeError
| IndexError
| NameError (name : string)
| TypeError.

Inductive outcome (A : Type) : Type :=
| Ok (a : A)
| Raise (e : exn).
Arguments Ok {A} a.
Arguments Raise {A} e.

(** ** SQLAlchemy objects *)

(** [sqlalchemy.engine.url.URL(drivername=..., username=..., password=...,
    database=..., query={...})]. *)
Record URL : Type := mkURL {
  drivername : string;
  username : string;
  password : string;
  database : string;
  query : list (string * string)
}.

(** The [db_config] dict, passed to [create_engine] as keyword arguments. *)
Record db_config : Type := mk_db_config {
  pool_size : Z;
  max_overflow : Z;
  pool_timeout : Z;
  pool_recycle : Z
}.

(** The engine (the pool object) [create_engine] returns: it is determined
    by the URL and the keyword arguments it was built from. *)
Record Engine : Type := mkEngine {
  engine_url : URL;
  engine_config : db_config
}.

Record Connection : Type := mkConnection { conn_engine : Engine }.

Definition Row : Type := list pyobj.

(** What [conn.execute(sql)] returns; [fetchall()] on it yields the rows
    or raises. *)
Record ResultProxy : Type := mkResultProxy { rp_fetchall : outcome (list Row) }.

(** ** The request, the environment and the state *)

(** The parts of the HTTP request a view could read through
    [flask.request]. *)
Record Request : Type := mkRequest {
  req_args : list (string * string);
  req_headers : list (string * string);
  req_body : list byte
}.

(** The environment of one request: the module constant [PROJECT_ID]
    ([google.auth.default()] may report no project, [None]), the request
    being served, and the answers of the external services. *)
Record Env : Type := mkEnv {
  PROJECT_ID : option string;
  request : Request;
  client_failure : option exn;
  secret_store : string -> outcome (list byte);
  engine_failure : URL -> db_config -> option exn;
  connect_failure : Engine -> option exn;
  execute_result : string -> outcome ResultProxy
}.

(** The calls into the libraries. *)
Inductive event : Type :=
| EvSecretManagerClient
| EvAccessSecret (name : string)
| EvCreateEngine (u : URL) (c : db_config)
| EvConnect
| EvExecute (sql : string)
| EvFetchall
| EvClose.

(** A log entry: the call and the exception it raised, if it raised. *)
Definition call : Type := (event * option exn)%type.

(** The process state: the module global [db] (unbound until
    [create_connection] has run), the number of connections the pool has
    on loan, Flask's [_got_first_request] flag, and the log of calls. *)
Record state : Type := mkState {
  db : option Engine;
  checked_out : nat;
  got_first_request : bool;
  trace : list call
}.

Definition log (c : call) (st : state) : state :=
  mkState (db st) (checked_out st) (got_first_request st) (trace st ++ [c]).

Definition log_all (cs : list call) (st : state) : state :=
  mkState (db st) (checked_out st) (got_first_request st) (trace st ++ cs).

Definition set_db (e : Engine) (st : state) : state :=
  mkState (Some e) (checked_out st) (got_first_request st) (trace st).

Definition set_checked_out (n : nat) (st : state) : state :=
  mkState (db st) n (got_first_request st) (trace st).

Definition set_got_first_request (b : bool) (st : state) : state :=
  mkState (db st) (checked_out st) b (trace st).

(** ** The monad *)

Definition M (A : Type) : Type := Env -> state -> outcome A * state.

Definition ret {A} (a : A) : M A := fun _ st => (Ok a, st).

Definition raise {A} (e : exn) : M A := fun _ st => (Raise e, st).

Definition bind {A B} (c : M A) (k : A -> M B) : M B :=
  fun env st =>
    match c env st with
    | (Ok a, st1) => k a env st1
    | (Raise e, st1) => (Raise e, st1)
    end.

Notation "x <- c ;; k" := (bind c (fun x => k))
  (at level 61, c at next level, right associativity).
Notation "c ;;; k" := (bind c (fun _ => k))
  (at level 61, right associativity).

Definition failure {A} (o : outcome A) : option exn :=
  match o with
  | Ok _ => None
  | Raise e => Some e
  end.

(** A library call that only depends on the environment: it is logged with
    its failure and its outcome is the outcome of the computation. *)
Definition external {A} (ev : event) (answer : Env -> outcome A) : M A :=
  fun env st => (answer env, log (ev, failure (answer env)) st).

(** [with acquire as r: body]: when [acquire] raises, the block is not
    entered; otherwise [release] runs when the block is left, normally or
    by an exception, and an exception of the block is raised again after
    it (the [__exit__] of a SQLAlchemy connection closes it and returns
    [None]). *)
Definition with_ {R A} (acquire : M R) (release : R -> M unit)
                 (body : R -> M A) : M A :=
  fun env st =>
    match acquire env st with
    | (Raise e, st1) => (Raise e, st1)
    | (Ok r, st1) =>
        match body r env st1 with
        | (Ok a, st2) =>
            match release r env st2 with
            | (Ok _, st3) => (Ok a, st3)
            | (Raise e, st3) => (Raise e, st3)
            end
        | (Raise e, st2) =>
            match release r env st2 with
            | (Ok _, st3) => (Raise e, st3)
            | (Raise e', st3) => (Raise e', st3)
            end
        end
    end.

(** ** [bytes.decode("UTF-8")] *)

Definition in_range (lo hi : N) (b : byte) : bool :=
  (lo <=? Byte.to_N b)%N && (Byte.to_N b <=? hi)%N.

Definition continuation (b : byte) : bool := in_range 128 191 b.

(** Well-formed UTF-8 as the strict codec accepts it: shortest forms only,
    no surrogates, nothing above U+10FFFF. *)
Fixpoint valid_utf8 (bs : list byte) : bool :=
  match bs with
  | [] => true
  | b0 :: t0 =>
      if in_range 0 127 b0 then valid_utf8 t0
      else
        match t0 with
        | [] => false
        | b1 :: t1 =>
            if in_range 194 223 b0 then continuation b1 && valid_utf8 t1
            else
              match t1 with
              | [] => false
              | b2 :: t2 =>
                  if in_range 224 224 b0
                  then in_range 160 191 b1 && continuation b2 && valid_utf8 t2
                  else if in_range 225 236 b0 || in_range 238 239 b0
                  then continuation b1 && continuation b2 && valid_utf8 t2
                  else if in_range 237 237 b0
                  then in_range 128 159 b1 && continuation b2 && valid_utf8 t2
                  else
                    match t2 with
                    | [] => false
                    | b3 :: t3 =>
                        if in_range 240 240 b0
                        then in_range 144 191 b1 && continuation b2
                             && continuation b3 && valid_utf8 t3
                        else if in_range 241 243 b0
                        then continuation b1 && continuation b2
                             && continuation b3 && valid_utf8 t3
                        else if in_range 244 244 b0
                        then in_range 128 143 b1 && continuation b2
                             && continuation b3 && valid_utf8 t3
                        else false
                    end
              end
        end
  end.

(** [data.decode("UTF-8")]: the text, or [UnicodeDecodeError]. *)
Definition decode (data : list byte) : M string :=
  if valid_utf8 data then ret (string_of_list_byte data)
  else raise UnicodeDecodeError.

(** [str(x)] as an f-string field formats it. *)
Definition format_field (x : option string) : string :=
  match x with
  | Some s => s
  | None => "None"
  end.

(** ** The library calls *)

(** The Secret Manager client. *)
Record Client : Type := mkClient { }.

(** [secretmanager.SecretManagerServiceClient()]. *)
Definition SecretManagerServiceClient : M Client :=
  external EvSecretManagerClient
    (fun env => match client_failure env with
                | Some e => Raise e
                | None => Ok mkClient
                end).

(** [client.access_secret_version(request={"name": name})] followed by
    [.payload.data]. *)
Definition access_secret_version (client : Client) (name : string)
  : M (list byte) :=
  external (EvAccessSecret name) (fun env => secret_store env name).

(** [sqlalchemy.create_engine(url, **config)]. *)
Definition create_engine (u : URL) (c : db_config) : M Engine :=
  external (EvCreateEngine u c)
    (fun env => match engine_failure env u c with
                | Some e => Raise e
                | None => Ok (mkEngine u c)
                end).

(** [engine.connect()]: a connection is checked out of the pool, or the
    checkout raises (the pool is exhausted for [pool_timeout] seconds, the
    socket cannot be reached). *)
Definition connect (eng : Engine) : M Connection :=
  fun env st =>
    match connect_failure env eng with
    | Some e => (Raise e, log (EvConnect, Some e) st)
    | None =>
        (Ok (mkConnection eng),
         set_checked_out (S (checked_out st)) (log (EvConnect, None) st))
    end.

(** [Connection.close()], what leaving the [with] block calls: the
    connection goes back to the pool. *)
Definition close (conn : Connection) : M unit :=
  fun _ st =>
    (Ok tt, set_checked_out (pred (checked_out st)) (log (EvClose, None) st)).

(** [conn.execute(sql)]. *)
Definition execute (conn : Connection) (sql : string) : M ResultProxy :=
  external (EvExecute sql) (fun env => execute_result env sql).

(** [result.fetchall()]. *)
Definition fetchall (res : ResultProxy) : M (list Row) :=
  external EvFetchall (fun _ => rp_fetchall res).

(** [row[i]] for a non-negative constant [i]. *)
Definition getitem (row : Row) (i : nat) : M pyobj :=
  match nth_error row i with
  | Some v => ret v
  | None => raise IndexError
  end.

(** Whether the JSON encoder accepts an object: it refuses [bytes] and
    the objects of other types it has no rendering for, and a list or a
    dict that holds one. *)
Fixpoint json_serializable (o : pyobj) : bool :=
  match o with
  | PyNone => true
  | PyInt _ => true
  | PyStr _ => true
  | PyBytes _ => false
  | PyOther _ (Some _) => true
  | PyOther _ None => false
  | PyList items => forallb json_serializable items
  | PyDict items => forallb (fun kv => json_serializable (snd kv)) items
  end.

(** The JSON value [flask.jsonify] serialises for an object the encoder
    accepts: lists become arrays, dicts objects, [None] null.  The keys
    of the dicts built here are already in sorted order.  For an object
    the encoder refuses there is no value; [dumps] raises before this
    function is asked for one. *)
Fixpoint jsonify (o : pyobj) : json :=
  match o with
  | PyNone => JNull
  | PyInt z => JNumber z
  | PyStr s => JString s
  | PyBytes _ => JNull
  | PyOther _ (Some j) => j
  | PyOther _ None => JNull
  | PyList items => JArray (map jsonify items)
  | PyDict items => JObject (map (fun kv => (fst kv, jsonify (snd kv))) items)
  end.

(** The call [jsonify(o)]: the body of the response, or the [TypeError]
    of the encoder on an object it cannot serialise. *)
Definition dumps (o : pyobj) : M json :=
  if json_serializable o then ret (jsonify o) else raise TypeError.

(** ** [main.py] *)

Definition init_connection_engine : M Engine :=
  fun env =>
   (client <- SecretManagerServiceClient ;;
    let db_user_secret :=
      "projects/" ++ format_field (PROJECT_ID env)
        ++ "/secrets/db_user_secret/versions/latest" in
    let db_password_secret :=
      "projects/" ++ format_field (PROJECT_ID env)
        ++ "/secrets/db_password_secret/versions/latest" in
    let db_name_secret :=
      "projects/" ++ format_field (PROJECT_ID env)
        ++ "/secrets/db_name_secret/versions/latest" in
    let cloud_sql_conn_name_secret :=
      "projects/" ++ format_field (PROJECT_ID env)
        ++ "/secrets/cloud_sql_connection_name_secret/versions/latest" in
    db_user_response <- access_secret_version client db_user_secret ;;
    db_password_response <-
      access_secret_version client db_password_secret ;;
    db_name_response <- access_secret_version client db_name_secret ;;
    cloud_sql_conn_name_response <-
      access_secret_version client cloud_sql_conn_name_secret ;;
    db_user <- decode db_user_response ;;
    db_pass <- decode db_password_response ;;
    db_name <- decode db_name_response ;;
    let db_socket_dir := "/cloudsql" in
    cloud_sql_connection_name <- decode cloud_sql_conn_name_response ;;
    let db_config := mk_db_config 5 2 30 1800 in
    pool <- create_engine
              (mkURL "mysql+pymysql" db_user db_pass db_name
                 [("unix_socket",
                   db_socket_dir ++ "/" ++ cloud_sql_connection_name)])
              db_config ;;
    ret pool) env.

(** [global db; db = init_connection_engine()]. *)
Definition create_connection : M unit :=
  pool <- init_connection_engine ;;
  fun _ st => (Ok tt, set_db pool st).

(** The [for row in pets_result] loop with its [pets.append]. *)
Fixpoint append_rows (pets_result : list Row) (pets : list pyobj)
  : M (list pyobj) :=
  match pets_result with
  | [] => ret pets
  | row :: rest =>
      id <- getitem row 0 ;;
      name <- getitem row 1 ;;
      append_rows rest (pets ++ [PyDict [("id", id); ("name", name)]])
  end.

(** Reading the global [db]. *)
Definition global_db : M Engine :=
  fun _ st =>
    match db st with
    | Some eng => (Ok eng, st)
    | None => (Raise (NameError "db"), st)
    end.

(** A response: the status and the JSON value of the body. *)
Record Response : Type := mkResponse {
  status : Z;
  body : option json
}.

Definition get_pets : M Response :=
  let pets := [] in
  engine <- global_db ;;
  pets <- with_ (connect engine) close
            (fun conn =>
               res <- execute conn "SELECT id, name from pets;" ;;
               pets_result <- fetchall res ;;
               append_rows pets_result pets) ;;
  body <- dumps (PyList pets) ;;
  ret (mkResponse 200 (Some body)).

(** ** The framework around the view *)

(** Modelled from the spec: Flask's request dispatch and its default error
    handler are not in src/ ([main.py] only registers [create_connection]
    with [app.before_first_request] and [get_pets] with [app.route]).  The
    hook runs before the first request is dispatched to the view, the flag
    [_got_first_request] is set once the hook has returned (a hook that
    raised is run again by the next request), and an exception that leaves
    the hook or the view is answered by the default handler with a server
    error, which the spec fixes to status 500. *)
Definition try_trigger_before_first_request_functions : M unit :=
  fun env st =>
    if got_first_request st then (Ok tt, st)
    else
      match create_connection env st with
      | (Ok _, st1) => (Ok tt, set_got_first_request true st1)
      | (Raise e, st1) => (Raise e, st1)
      end.

(** Modelled from the spec: the dispatch of a [GET /] request, which is
    routed to [get_pets] after the hook (Flask's routing is not in src/). *)
Definition full_dispatch_request : M Response :=
  try_trigger_before_first_request_functions ;;; get_pets.

(** Modelled from the spec: the response of the default error handler,
    which is not in src/. *)
Definition internal_server_error : Response := mkResponse 500 None.

(** Modelled from the spec: one [GET /] request served from start to
    finish; the default error handler is not in src/. *)
Definition wsgi_app (env : Env) (st : state) : Response * state :=
  match full_dispatch_request env st with
  | (Ok resp, st1) => (resp, st1)
  | (Raise _, st1) => (internal_server_error, st1)
  end.

(** ** Names used by the statements *)

Definition pets_query : string := "SELECT id, name from pets;".

(** The secret resource name as the addressing convention writes it:
    [projects/{PROJECT_ID}/secrets/{key}/versions/latest]. *)
Definition secret_resource_name (project key : string) : string :=
  "projects/" ++ project ++ "/secrets/" ++ key ++ "/versions/latest".

Definition secret_keys : list string :=
  [ "db_user_secret"; "db_password_secret"; "db_name_secret";
    "cloud_sql_connection_name_secret" ].

(** The dict the view builds from one row, when the row has the two
    columns the view indexes. *)
Definition pet_of_row (row : Row) : option pyobj :=
  match row with
  | id :: name :: _ => Some (PyDict [("id", id); ("name", name)])
  | _ => None
  end.

(** All the dicts of a result set, or [None] when some row is too short. *)
Fixpoint pets_of_rows (rows : list Row) : option (list pyobj) :=
  match rows with
  | [] => Some []
  | row :: rest =>
      match pet_of_row row, pets_of_rows rest with
      | Some p, Some ps => Some (p :: ps)
      | _, _ => None
      end
  end.

(** The query is answered with [rows]: [db] is bound, the checkout, the
    statement and [fetchall] all succeed. *)
Definition query_returns (env : Env) (st : state) (rows : list Row) : Prop :=
  exists eng res,
    db st = Some eng /\
    connect_failure env eng = None /\
    execute_result env pets_query = Ok res /\
    rp_fetchall res = Ok rows.

(** The rows have the shape of a [SELECT id, name] result. *)
Definition two_columns (rows : list Row) : Prop :=
  Forall (fun row : Row => 2 <= length row) rows.

Definition is_connect (c : call) : bool :=
  match fst c with EvConnect => true | _ => false end.

Definition is_execute (c : call) : bool :=
  match fst c with EvExecute _ => true | _ => false end.

Definition is_close (c : call) : bool :=
  match fst c with EvClose => true | _ => false end.

Definition count (p : call -> bool) (l : list call) : nat :=
  length (filter p l).

(** The name under which [init_connection_engine] asks for a key. *)
Definition requested_name (env : Env) (key : string) : string :=
  secret_resource_name (format_field (PROJECT_ID env)) key.

(** The log entry of asking for a key. *)
Definition ask (env : Env) (key : string) : call :=
  (EvAccessSecret (requested_name env key),
   failure (secret_store env (requested_name env key))).

(** The log entry of creating the client. *)
Definition client_call (env : Env) : call :=
  (EvSecretManagerClient, client_failure env).

(** The URL and the configuration [init_connection_engine] hands to
    [create_engine] once the four payloads are decoded. *)
Definition engine_url_of (user pass name conn : list byte) : URL :=
  mkURL "mysql+pymysql" (string_of_list_byte user) (string_of_list_byte pass)
    (string_of_list_byte name)
    [("unix_socket", ("/cloudsql/" ++ string_of_list_byte conn)%string)].

Definition engine_config_of : db_config := mk_db_config 5 2 30 1800.

Arguments requested_name : simpl never.

(** The calls logged between two states of the same process. *)
Definition calls_since (st st' : state) : list call :=
  skipn (length (trace st)) (trace st').

(** Every failed call of [cs] raised [r] and is followed by nothing but
    the release of the connection. *)
Fixpoint failures_final (cs : list call) (r : option exn) : Prop :=
  match cs with
  | [] => True
  | c :: post =>
      (forall e, snd c = Some e ->
         r = Some e /\ Forall (fun c' => fst c' = EvClose) post)
      /\ failures_final post r
  end.

(** A successful checkout, that is a connection on loan. *)
Definition is_acquire (c : call) : bool :=
  match c with
  | (EvConnect, None) => true
  | _ => false
  end.

(** The calls the view may make on the database. *)
Definition view_call (c : call) : Prop :=
  fst c = EvConnect \/ fst c = EvExecute pets_query \/
  fst c = EvFetchall \/ fst c = EvClose.

(** ** Scenarios *)

Definition demo_secrets (name : string) : outcome (list byte) :=
  if name =? "projects/demo/secrets/db_user_secret/versions/latest"
  then Ok (list_byte_of_string "root")
  else if name =? "projects/demo/secrets/db_password_secret/versions/latest"
  then Ok (list_byte_of_string "hunter2")
  else if name =? "projects/demo/secrets/db_name_secret/versions/latest"
  then Ok (list_byte_of_string "petsdb")
  else if name =?
          "projects/demo/secrets/cloud_sql_connection_name_secret/versions/latest"
  then Ok (list_byte_of_string "demo:us-central1:pets")
  else Raise (ExternalError "NotFound").

Definition demo_request : Request :=
  mkRequest [] [("Accept", "application/json")] [].

(** A healthy deployment whose pets table answers with [rows]. *)
Definition demo_env (rows : list Row) : Env :=
  mkEnv (Some "demo") demo_request None demo_secrets
    (fun _ _ => None) (fun _ => None)
    (fun sql =>
       if sql =? pets_query then Ok (mkResultProxy (Ok rows))
       else Raise (ExternalError "ProgrammingError")).

(** The same deployment without access to the secrets. *)
Definition forbidden_env : Env :=
  mkEnv (Some "demo") demo_request None
    (fun _ => Raise (ExternalError "PermissionDenied"))
    (fun _ _ => None) (fun _ => None)
    (fun _ => Ok (mkResultProxy (Ok []))).

(** The same deployment with a database that rejects the statement. *)
Definition broken_query_env : Env :=
  mkEnv (Some "demo") demo_request None demo_secrets
    (fun _ _ => None) (fun _ => None)
    (fun _ => Raise (ExternalError "ProgrammingError")).

Definition demo_engine : Engine :=
  mkEngine
    (engine_url_of (list_byte_of_string "root") (list_byte_of_string "hunter2")
       (list_byte_of_string "petsdb")
       (list_byte_of_string "demo:us-central1:pets"))
    engine_config_of.

(** A process that has served no request yet. *)
Definition fresh_state : state := mkState None 0 false [].

(** A process whose pool has been built. *)
Definition ready_state : state := mkState (Some demo_engine) 0 true [].

Definition two_pets : list Row :=
  [ [PyInt 1; PyStr "Rex"]; [PyInt 2; PyStr "Whiskers"] ].

(** The names of the secrets asked for by the calls of a log, in order. *)
Definition requested_names (cs : list call) : list string :=
  flat_map (fun c : call =>
              match fst c with
              | EvAccessSecret name => [name]
              | _ => []
              end) cs.

(** The socket path as the addressing convention writes it:
    [{socket_dir}/{connection_identifier}]. *)
Definition unix_socket_path (socket_dir connection_identifier : string)
  : string :=
  socket_dir ++ "/" ++ connection_identifier.

(** [URL.get_backend_name()]: the dialect is what the driver name has
    before its ["+"]. *)
Fixpoint get_backend_name (driver : string) : string :=
  match driver with
  | EmptyString => EmptyString
  | String c rest =>
      if Ascii.eqb c "+" then EmptyString
      else String c (get_backend_name rest)
  end.

(** The environment of another request to the same deployment. *)
Definition with_request (r : Request) (env : Env) : Env :=
  mkEnv (PROJECT_ID env) r (client_failure env) (secret_store env)
    (engine_failure env)
    (connect_failure env) (execute_result env).

(** The JSON object of one pet. *)
Definition pet_json (id name : json) : json :=
  JObject [("id", id); ("name", name)].

(** The JSON value of a cell, case by case: NULL is null, an integer that
    number, a string that string, an object of another type what the
    encoder makes of it. *)
Definition rendered_as (cell : pyobj) (j : json) : Prop :=
  (cell = PyNone -> j = JNull) /\
  (forall z, cell = PyInt z -> j = JNumber z) /\
  (forall s, cell = PyStr s -> j = JString s) /\
  (forall t j', cell = PyOther t (Some j') -> j = j').

(** The encoder accepts the two cells of a row that the view reads. *)
Definition serializable_row (row : Row) : bool :=
  forallb json_serializable (firstn 2 row).

Definition serializable_rows (rows : list Row) : bool :=
  forallb serializable_row rows.

Definition keys (j : json) : list string :=
  match j with
  | JObject members => map fst members
  | _ => []
  end.

(** An object [{id: integer, name: string}]. *)
Definition typed_pet (j : json) : Prop :=
  exists z s, j = JObject [("id", JNumber z); ("name", JString s)].

(** A pets table with an unnamed pet: the name column is NULL. *)
Definition unnamed_pet : list Row := [ [PyInt 1; PyNone] ].

(** A pets table whose name column is binary: the driver returns the
    name as [bytes]. *)
Definition binary_name : list Row :=
  [ [PyInt 1; PyBytes (list_byte_of_string "Rex")] ].


(** Another request to the healthy deployment, with other content, served
    by a process in another state. *)
Definition other_request : Request :=
  mkRequest [("name", "Rex")] [("X-Debug", "1")] (list_byte_of_string "{}").

Definition busy_state : state :=
  mkState (Some demo_engine) 3 true [(EvConnect, None)].

(** ** Case analysis on the answers of the environment *)

Ltac secret_cases env :=
  try match goal with
      | |- context [match client_failure env with _ => _ end] =>
          let E := fresh "Hclient" in
          destruct (client_failure env) eqn:E
      end;
  repeat match goal with
         | |- context [match secret_store env ?n with _ => _ end] =>
             let E := fresh "Hsecret" in
             destruct (secret_store env n) eqn:E
         end.

Ltac engine_cases env :=
  repeat match goal with
         | |- context [if ?b then _ else _] =>
             let E := fresh "Hvalid" in destruct b eqn:E
         | |- context [engine_failure env ?u ?c] =>
             let E := fresh "Hengine" in
             destruct (engine_failure env u c) eqn:E
         end.

(** The healthy deployment at a moment when the pool is exhausted: the
    checkout gives up after [pool_timeout] seconds. *)
Definition exhausted_env : Env :=
  mkEnv (Some "demo") demo_request None demo_secrets
    (fun _ _ => None) (fun _ => Some (ExternalError "TimeoutError"))
    (fun _ => Ok (mkResultProxy (Ok two_pets))).

(** ** Further names used by the statements *)

(** The view invoked once per environment, one invocation after the
    other in the same process. *)
Fixpoint serve_all (envs : list Env) (st : state) : state :=
  match envs with
  | [] => st
  | env :: rest => serve_all rest (snd (get_pets env st))
  end.

Definition is_create_engine (c : call) : bool :=
  match fst c with EvCreateEngine _ _ => true | _ => false end.

(** The calls [create_connection] may make: on the secret store and on
    [create_engine], never on a connection. *)
Definition init_call (c : call) : Prop :=
  fst c = EvSecretManagerClient \/
  (exists name, fst c = EvAccessSecret name) \/
  (exists u cfg, fst c = EvCreateEngine u cfg).

(** The calls that use a connection. *)
Definition uses_connection (c : call) : Prop :=
  (exists sql, fst c = EvExecute sql) \/ fst c = EvFetchall.

(** A deployment without application credentials: the client cannot be
    created. *)
Definition no_credentials_env : Env :=
  mkEnv (Some "demo") demo_request
    (Some (ExternalError "DefaultCredentialsError")) demo_secrets
    (fun _ _ => None) (fun _ => None)
    (fun _ => Ok (mkResultProxy (Ok two_pets))).

(** A process whose [db] is bound to a pool built from other secrets. *)
Definition stale_state : state :=
  mkState
    (Some (mkEngine
             (engine_url_of (list_byte_of_string "old")
                (list_byte_of_string "old") (list_byte_of_string "old")
                (list_byte_of_string "old"))
             engine_config_of))
    0 true [].

Open Scope list_scope.

(** ** The loop *)

Lemma append_rows_eq (rows : list Row) :
  forall pets env st,
    append_rows rows pets env st =
    (match pets_of_rows rows with
     | Some ps => Ok (pets ++ ps)
     | None => Raise IndexError
     end, st).
Proof.
  induction rows as [|row rest IH]; intros pets env st.
  - cbn. now rewrite app_nil_r.
  - cbn [append_rows pets_of_rows]. unfold bind, getitem.
    destruct row as [|id [|name more]]; cbn; try reflexivity.
    rewrite IH. destruct (pets_of_rows rest); [|reflexivity].
    now rewrite <- app_assoc.
Qed.

Lemma pets_of_rows_two_columns (rows : list Row) :
  two_columns rows ->
  pets_of_rows rows =
  Some (map (fun row => PyDict [("id", nth 0 row PyNone);
                                ("name", nth 1 row PyNone)]) rows).
Proof.
  induction 1 as [|row rest Hrow _ IH]; [reflexivity|].
  cbn [pets_of_rows map]. rewrite IH.
  destruct row as [|id [|name more]]; cbn in Hrow; try lia.
  reflexivity.
Qed.

(** ** Running the view *)

(** The view on every path: what it returns and the state it leaves. *)
Lemma get_pets_run env st :
  get_pets env st =
  match db st with
  | None => (Raise (NameError "db"), st)
  | Some eng =>
      match connect_failure env eng with
      | Some e =>
          (Raise e, log_all [(EvConnect, Some e)] st)
      | None =>
          match execute_result env pets_query with
          | Raise e =>
              (Raise e,
               log_all [(EvConnect, None); (EvExecute pets_query, Some e);
                        (EvClose, None)] st)
          | Ok res =>
              (match rp_fetchall res with
               | Raise e => Raise e
               | Ok rows =>
                   match pets_of_rows rows with
                   | Some ps =>
                       if json_serializable (PyList ps)
                       then Ok (mkResponse 200 (Some (jsonify (PyList ps))))
                       else Raise TypeError
                   | None => Raise IndexError
                   end
               end,
               log_all [(EvConnect, None); (EvExecute pets_query, None);
                        (EvFetchall, failure (rp_fetchall res));
                        (EvClose, None)] st)
          end
      end
  end.
Proof.
  unfold get_pets, bind, global_db, with_, connect, execute, fetchall,
    external, close, dumps, ret, raise, log, log_all, set_checked_out,
    pets_query.
  destruct st as [d n g t]; cbn.
  destruct d as [eng|]; [|reflexivity].
  destruct (connect_failure env eng) as [e|]; [reflexivity|]; cbn.
  destruct (execute_result env _) as [res|e]; cbn.
  - destruct (rp_fetchall res) as [rows|e]; cbn.
    + rewrite append_rows_eq.
      destruct (pets_of_rows rows) as [ps|]; cbn;
        [destruct (forallb json_serializable ps); cbn|];
        now rewrite <- !app_assoc.
    + now rewrite <- !app_assoc.
  - now rewrite <- !app_assoc.
Qed.

(** ** Running the initialisation *)

(** The initialisation on every path. *)
Lemma init_connection_engine_run env st :
  init_connection_engine env st =
  match client_failure env with
  | Some e => (Raise e, log_all [client_call env] st)
  | None =>
  match secret_store env (requested_name env "db_user_secret") with
  | Raise e =>
      (Raise e, log_all [client_call env; ask env "db_user_secret"] st)
  | Ok user =>
  match secret_store env (requested_name env "db_password_secret") with
  | Raise e =>
      (Raise e,
       log_all [client_call env; ask env "db_user_secret";
                ask env "db_password_secret"] st)
  | Ok pass =>
  match secret_store env (requested_name env "db_name_secret") with
  | Raise e =>
      (Raise e,
       log_all [client_call env; ask env "db_user_secret";
                ask env "db_password_secret"; ask env "db_name_secret"] st)
  | Ok name =>
  match secret_store env
          (requested_name env "cloud_sql_connection_name_secret") with
  | Raise e =>
      (Raise e, log_all (client_call env :: map (ask env) secret_keys) st)
  | Ok conn =>
      if valid_utf8 user && valid_utf8 pass && valid_utf8 name
         && valid_utf8 conn
      then
        (match engine_failure env (engine_url_of user pass name conn)
                 engine_config_of with
         | Some e => Raise e
         | None =>
             Ok (mkEngine (engine_url_of user pass name conn)
                   engine_config_of)
         end,
         log_all (client_call env :: map (ask env) secret_keys
                  ++ [(EvCreateEngine (engine_url_of user pass name conn)
                         engine_config_of,
                       engine_failure env (engine_url_of user pass name conn)
                         engine_config_of)]) st)
      else (Raise UnicodeDecodeError,
            log_all (client_call env :: map (ask env) secret_keys) st)
  end end end end end.
Proof.
  unfold init_connection_engine, bind, SecretManagerServiceClient,
    access_secret_version, external, decode, create_engine, ret, raise, log,
    log_all, client_call, ask, requested_name, secret_resource_name,
    secret_keys, engine_url_of, engine_config_of.
  destruct st as [d n g t]; cbn.
  destruct (client_failure env); cbn;
    rewrite <- ?app_assoc; try reflexivity.
  repeat match goal with
         | |- context [secret_store env ?x] =>
             destruct (secret_store env x); cbn
         end;
    rewrite <- ?app_assoc; try reflexivity.
  repeat match goal with
         | |- context [valid_utf8 ?x] => destruct (valid_utf8 x); cbn
         end;
    rewrite <- ?app_assoc; try reflexivity.
  match goal with
  | |- context [engine_failure env ?u ?c] =>
      destruct (engine_failure env u c); cbn
  end; unfold log; cbn; now rewrite <- ?app_assoc.
Qed.

Lemma create_connection_run env st :
  create_connection env st =
  match init_connection_engine env st with
  | (Ok pool, st1) => (Ok tt, set_db pool st1)
  | (Raise e, st1) => (Raise e, st1)
  end.
Proof. reflexivity. Qed.

(** ** The calls of one run *)

Lemma calls_since_log_all cs st : calls_since st (log_all cs st) = cs.
Proof.
  unfold calls_since, log_all; cbn.
  rewrite skipn_app, skipn_all, Nat.sub_diag. reflexivity.
Qed.

Lemma calls_since_refl st : calls_since st st = [].
Proof. unfold calls_since. apply skipn_all. Qed.

Lemma calls_since_set_db pool st st' :
  calls_since st (set_db pool st') = calls_since st st'.
Proof. reflexivity. Qed.

Lemma failures_final_split cs r :
  failures_final cs r ->
  forall pre c post e,
    cs = pre ++ c :: post -> snd c = Some e ->
    r = Some e /\ Forall (fun c' => fst c' = EvClose) post.
Proof.
  intros H pre; revert cs H.
  induction pre as [|p pre IH]; intros cs H c post e -> Hc; cbn in H.
  - now apply (proj1 H).
  - now apply (IH _ (proj2 H) c post e).
Qed.

Lemma failures_final_app cs cs' r :
  Forall (fun c => snd c = None) cs ->
  failures_final cs' r -> failures_final (cs ++ cs') r.
Proof.
  induction 1 as [|c cs Hc _ IH]; intros H'; cbn; [assumption|].
  split; [|now apply IH].
  intros e He. congruence.
Qed.

Lemma failures_final_none cs :
  failures_final cs None -> Forall (fun c => snd c = None) cs.
Proof.
  induction cs as [|c cs IH]; cbn; intros H; constructor.
  - destruct (snd c) as [e|]; [|reflexivity].
    now destruct (proj1 H e eq_refl).
  - now apply IH.
Qed.

(** The calls of the initialisation, whatever the path. *)
Lemma init_connection_engine_calls env st :
  exists cs,
    snd (init_connection_engine env st) = log_all cs st /\
    failures_final cs (failure (fst (init_connection_engine env st))) /\
    (forall pool, fst (init_connection_engine env st) = Ok pool ->
       Forall (fun c => snd c = None) cs) /\
    Forall (fun c => fst c <> EvClose) cs.
Proof.
  rewrite init_connection_engine_run.
  secret_cases env; engine_cases env;
    unfold secret_keys, ask, client_call; cbn [map app];
    rewrite ?Hclient, ?Hsecret, ?Hsecret0, ?Hsecret1, ?Hsecret2;
    (eexists; split; [reflexivity|]); cbn;
    (split; [|split]);
    try (repeat constructor; discriminate);
    try (intros; discriminate);
    repeat split; try discriminate; try congruence; auto.
Qed.

(** The calls of the view, whatever the path. *)
Lemma get_pets_calls env st :
  exists cs,
    snd (get_pets env st) = log_all cs st /\
    failures_final cs (failure (fst (get_pets env st))).
Proof.
  rewrite get_pets_run.
  destruct (db st) as [eng|].
  - destruct (connect_failure env eng) as [e|].
    + eexists; split; [reflexivity|]; cbn.
      repeat split; try discriminate; intros; try congruence; auto.
    + destruct (execute_result env pets_query) as [res|e].
      * destruct (rp_fetchall res) as [rows|e];
          (eexists; split; [reflexivity|]); cbn;
          repeat split; try discriminate; intros; try congruence;
            repeat constructor.
      * eexists; split; [reflexivity|]; cbn.
        repeat split; try discriminate; intros; try congruence;
          repeat constructor.
  - exists []. split; [|exact I].
    unfold log_all; cbn. rewrite app_nil_r. now destruct st.
Qed.

Lemma calls_since_of_trace st st' cs :
  trace st' = trace st ++ cs -> calls_since st st' = cs.
Proof.
  intros H. unfold calls_since.
  rewrite H, skipn_app, skipn_all, Nat.sub_diag. reflexivity.
Qed.

(** The calls of one dispatched request, whatever the path. *)
Lemma full_dispatch_request_calls env st :
  exists cs,
    trace (snd (full_dispatch_request env st)) = trace st ++ cs /\
    failures_final cs (failure (fst (full_dispatch_request env st))).
Proof.
  unfold full_dispatch_request, bind,
    try_trigger_before_first_request_functions.
  destruct (got_first_request st).
  - destruct (get_pets_calls env st) as (cs & Hst & Hfin).
    exists cs. now rewrite Hst.
  - rewrite create_connection_run.
    destruct (init_connection_engine_calls env st)
      as (cs & Hst & Hfin & Hok & _).
    destruct (init_connection_engine env st) as [[pool|e] st1];
      cbn in Hst, Hfin, Hok; subst st1.
    + destruct (get_pets_calls env
                  (set_got_first_request true (set_db pool (log_all cs st))))
        as (cs' & Hst' & Hfin').
      exists (cs ++ cs'). rewrite Hst'; cbn. split.
      * now rewrite app_assoc.
      * apply failures_final_app; [now apply (Hok pool)|exact Hfin'].
    + exists cs. now split.
Qed.

(** The view makes no call on the database but the checkout, the fixed
    statement, [fetchall] and the release. *)
Lemma get_pets_view_calls env st :
  Forall view_call (calls_since st (snd (get_pets env st))).
Proof.
  rewrite get_pets_run. unfold view_call.
  destruct (db st) as [eng|]; cbn [snd].
  - destruct (connect_failure env eng) as [e|]; cbn [snd];
      [|destruct (execute_result env pets_query) as [res|e]; cbn [snd]];
      rewrite calls_since_log_all;
      repeat (apply Forall_cons; [cbn; auto|]); apply Forall_nil.
  - rewrite calls_since_refl. apply Forall_nil.
Qed.

(** ** The pets and the encoder *)

Lemma rendered_as_jsonify cell : rendered_as cell (jsonify cell).
Proof.
  unfold rendered_as. repeat split; intros; subst; reflexivity.
Qed.

(** The dicts built from the rows, row by row. *)
Lemma pets_of_rows_cells rows :
  forall ps,
    pets_of_rows rows = Some ps ->
    Forall2 (fun (row : Row) p =>
               exists id name,
                 nth_error row 0 = Some id /\ nth_error row 1 = Some name /\
                 p = PyDict [("id"%string, id); ("name"%string, name)])
            rows ps.
Proof.
  induction rows as [|row rest IH]; intros ps H; cbn in H.
  - injection H as <-. constructor.
  - destruct row as [|id [|name more]]; cbn in H; try discriminate.
    destruct (pets_of_rows rest) as [ps'|]; [|discriminate].
    injection H as <-. constructor; [|now apply IH].
    now exists id, name.
Qed.

(** The encoder accepts the list of dicts exactly when it accepts the two
    cells of every row. *)
Lemma pets_serializable rows :
  forall ps,
    pets_of_rows rows = Some ps ->
    json_serializable (PyList ps) = serializable_rows rows.
Proof.
  induction rows as [|row rest IH]; intros ps H; cbn in H.
  - now injection H as <-.
  - destruct row as [|id [|name more]]; cbn in H; try discriminate.
    destruct (pets_of_rows rest) as [ps'|] eqn:Hrest; [|discriminate].
    injection H as <-. specialize (IH ps' eq_refl).
    cbn in IH |- *. rewrite IH. unfold serializable_row; cbn.
    now rewrite !andb_true_r.
Qed.

(** * The properties *)

(** ** Initialisation *)

(** C8. Initialisation is all or nothing for the global [db]: when a call
    made by [create_connection] fails (a secret fetch or the construction
    of the engine), and more generally whenever [init_connection_engine]
    raises, [create_connection] raises the same exception and leaves [db]
    as it was; when [init_connection_engine] returns a pool, [db] is bound
    to exactly that pool, which is the engine built from the URL and the
    configuration handed to [create_engine]. *)
Theorem create_connection_atomic env st :
  (forall c e,
     In c (calls_since st (snd (create_connection env st))) ->
     snd c = Some e ->
     fst (create_connection env st) = Raise e /\
     db (snd (create_connection env st)) = db st) /\
  (forall e,
     fst (init_connection_engine env st) = Raise e ->
     fst (create_connection env st) = Raise e /\
     db (snd (create_connection env st)) = db st) /\
  (forall pool,
     fst (init_connection_engine env st) = Ok pool ->
     fst (create_connection env st) = Ok tt /\
     db (snd (create_connection env st)) = Some pool /\
     In (EvCreateEngine (engine_url pool) (engine_config pool), None)
        (calls_since st (snd (create_connection env st)))).
Proof.
  rewrite create_connection_run.
  destruct (init_connection_engine_calls env st) as (cs & Hst & Hfin & _ & _).
  assert (Hcreated : forall pool,
             fst (init_connection_engine env st) = Ok pool ->
             In (EvCreateEngine (engine_url pool) (engine_config pool), None)
                cs).
  { revert Hst. rewrite init_connection_engine_run.
    secret_cases env; engine_cases env; cbn;
      intros Hst pool Hpool; try discriminate.
    injection Hpool as <-.
    apply (f_equal (calls_since st)) in Hst.
    rewrite !calls_since_log_all in Hst. rewrite <- Hst.
    cbn. auto 10. }
  destruct (init_connection_engine env st) as [[pool|e] st1];
    cbn in Hst, Hfin, Hcreated |- *; subst st1.
  - rewrite calls_since_set_db, calls_since_log_all.
    split; [|split].
    + intros c e Hin He.
      apply in_split in Hin as (pre & post & ->).
      destruct (failures_final_split _ _ Hfin pre c post e eq_refl He)
        as [Habs _]. discriminate.
    + discriminate.
    + intros p [= <-]. repeat split. now apply Hcreated.
  - rewrite calls_since_log_all.
    split; [|split].
    + intros c e' Hin He.
      apply in_split in Hin as (pre & post & ->).
      destruct (failures_final_split _ _ Hfin pre c post e' eq_refl He)
        as [[= ->] _]. now split.
    + intros e' [= ->]. now split.
    + discriminate.
Qed.

(** ** Failures *)

(** C2. No failure is caught, retried or recovered.  A failed library call
    made by [create_connection] (a secret fetch, the construction of the
    engine) is its last call and its exception is what [create_connection]
    raises; a failed call made by [get_pets] (the checkout, the statement,
    [fetchall]) is followed by nothing but the release of the connection
    and its exception is what [get_pets] raises; the request in which a
    call failed is answered by the error response, status 500; so is the
    first request when [create_connection] raises for any reason, and [db]
    stays as it was; and a response with status 200 is only given when no
    call failed, with the pets built from the rows that were fetched. *)
Theorem failures_propagate env st :
  (forall pre c post e,
     calls_since st (snd (create_connection env st)) = pre ++ c :: post ->
     snd c = Some e ->
     fst (create_connection env st) = Raise e /\ post = []) /\
  (forall pre c post e,
     calls_since st (snd (get_pets env st)) = pre ++ c :: post ->
     snd c = Some e ->
     fst (get_pets env st) = Raise e /\
     Forall (fun c' => fst c' = EvClose) post) /\
  (forall pre c post e,
     calls_since st (snd (wsgi_app env st)) = pre ++ c :: post ->
     snd c = Some e ->
     fst (wsgi_app env st) = internal_server_error /\
     Forall (fun c' => fst c' = EvClose) post) /\
  (forall e,
     got_first_request st = false ->
     fst (create_connection env st) = Raise e ->
     fst (wsgi_app env st) = internal_server_error /\
     db (snd (wsgi_app env st)) = db st) /\
  (status (fst (wsgi_app env st)) = 200%Z ->
     Forall (fun c => snd c = None) (calls_since st (snd (wsgi_app env st)))
     /\ exists res rows ps,
          execute_result env pets_query = Ok res /\
          rp_fetchall res = Ok rows /\
          pets_of_rows rows = Some ps /\
          fst (wsgi_app env st)
          = mkResponse 200 (Some (jsonify (PyList ps)))).
Proof.
  split; [|split; [|split; [|split]]].
  - intros pre c post e Hcs He.
    rewrite create_connection_run in *.
    destruct (init_connection_engine_calls env st)
      as (cs & Hst & Hfin & _ & Hnoclose).
    destruct (init_connection_engine env st) as [[pool|e0] st1];
      cbn in Hst, Hfin, Hcs |- *; subst st1;
      rewrite ?calls_since_set_db, calls_since_log_all in Hcs; subst cs;
      destruct (failures_final_split _ _ Hfin pre c post e eq_refl He)
        as [Hr Hpost]; [discriminate|].
    injection Hr as ->. split; [reflexivity|].
    apply Forall_app in Hnoclose as [_ Hnoclose].
    apply Forall_inv_tail in Hnoclose.
    destruct post as [|c' post]; [reflexivity|].
    apply Forall_inv in Hnoclose. apply Forall_inv in Hpost. contradiction.
  - intros pre c post e Hcs He.
    destruct (get_pets_calls env st) as (cs & Hst & Hfin).
    rewrite Hst, calls_since_log_all in Hcs. subst cs.
    destruct (failures_final_split _ _ Hfin pre c post e eq_refl He)
      as [Hr Hpost].
    split; [|exact Hpost].
    destruct (fst (get_pets env st)); cbn in Hr; congruence.
  - intros pre c post e Hcs He. unfold wsgi_app in *.
    destruct (full_dispatch_request_calls env st) as (cs & Hst & Hfin).
    destruct (full_dispatch_request env st) as [[resp|e0] st1];
      cbn in Hst, Hfin, Hcs |- *;
      rewrite (calls_since_of_trace _ _ _ Hst) in Hcs; subst cs;
      destruct (failures_final_split _ _ Hfin pre c post e eq_refl He)
        as [Hr Hpost]; [discriminate|].
    now split.
  - intros e Hfirst Hraise.
    unfold wsgi_app, full_dispatch_request, bind,
      try_trigger_before_first_request_functions.
    rewrite Hfirst.
    assert (Hdb : db (snd (create_connection env st)) = db st).
    { rewrite create_connection_run in *.
      destruct (init_connection_engine_calls env st) as (cs & Hcs & _).
      destruct (init_connection_engine env st) as [[pool|e0] st1];
        cbn in Hcs, Hraise |- *; [discriminate|now subst st1]. }
    destruct (create_connection env st) as [[u|e0] st1];
      cbn in Hraise, Hdb |- *; [discriminate|now split].
  - intros H200. split.
    + unfold wsgi_app in *.
      destruct (full_dispatch_request_calls env st) as (cs & Hst & Hfin).
      destruct (full_dispatch_request env st) as [[resp|e0] st1];
        cbn in Hst, Hfin, H200 |- *; [|discriminate].
      rewrite (calls_since_of_trace _ _ _ Hst).
      now apply failures_final_none.
    + revert H200.
      unfold wsgi_app, full_dispatch_request, bind,
        try_trigger_before_first_request_functions.
      assert (Hview : forall st0,
                 status (fst (let (o, st1) := get_pets env st0 in
                              match o with
                              | Ok resp => (resp, st1)
                              | Raise _ => (internal_server_error, st1)
                              end)) = 200%Z ->
                 exists res rows ps,
                   execute_result env pets_query = Ok res /\
                   rp_fetchall res = Ok rows /\
                   pets_of_rows rows = Some ps /\
                   fst (let (o, st1) := get_pets env st0 in
                        match o with
                        | Ok resp => (resp, st1)
                        | Raise _ => (internal_server_error, st1)
                        end)
                   = mkResponse 200 (Some (jsonify (PyList ps)))).
      { intros st0. rewrite get_pets_run.
        destruct (db st0) as [eng|]; [|discriminate].
        destruct (connect_failure env eng); [discriminate|].
        destruct (execute_result env pets_query) as [res|]; [|discriminate].
        destruct (rp_fetchall res) as [rows|] eqn:Hrows; [|discriminate].
        destruct (pets_of_rows rows) as [ps|] eqn:Hps; [|discriminate].
        destruct (json_serializable (PyList ps)); [|discriminate].
        intros _. now exists res, rows, ps. }
      destruct (got_first_request st).
      * apply Hview.
      * destruct (create_connection env st) as [[u|e0] st1];
          [apply Hview|discriminate].
Qed.

(** ** The connection *)

(** C4. The connection [get_pets] takes from the pool is given back on
    every path: whatever the view returns or raises, the pool has as many
    connections on loan after the invocation as before, the invocation
    released as many connections as it acquired, and when it acquired one
    its last call is the release. *)
Theorem connection_released env st :
  checked_out (snd (get_pets env st)) = checked_out st /\
  count is_acquire (calls_since st (snd (get_pets env st)))
  = count is_close (calls_since st (snd (get_pets env st))) /\
  (In (EvConnect, None) (calls_since st (snd (get_pets env st))) ->
   exists mid,
     calls_since st (snd (get_pets env st))
     = (EvConnect, None) :: mid ++ [(EvClose, None)] /\
     count is_acquire mid = 0 /\ count is_close mid = 0).
Proof.
  rewrite get_pets_run.
  destruct (db st) as [eng|]; cbn [snd].
  - destruct (connect_failure env eng) as [e|]; cbn [snd].
    + rewrite calls_since_log_all. repeat split.
      intros [[=]|[]].
    + destruct (execute_result env pets_query) as [res|e]; cbn [snd];
        rewrite calls_since_log_all; (split; [reflexivity|]);
        (split; [reflexivity|]); intros _.
      * now exists [(EvExecute pets_query, None);
                    (EvFetchall, failure (rp_fetchall res))].
      * now exists [(EvExecute pets_query, Some e)].
  - rewrite calls_since_refl. repeat split. intros [].
Qed.

(** C10, as the view has it.  An invocation of [get_pets] with [db]
    bound asks the pool for a connection exactly once.  When the checkout
    succeeds the invocation holds exactly one connection and executes
    exactly one statement, the fixed query, however many rows it returns
    (and also when it raises); when the checkout fails it holds no
    connection and executes no statement.  On every path the view makes no
    call on the database but the checkout, the fixed statement, [fetchall]
    and the release. *)
Theorem one_connection_one_statement env st eng :
  db st = Some eng ->
  count is_connect (calls_since st (snd (get_pets env st))) = 1 /\
  (connect_failure env eng = None ->
   count is_acquire (calls_since st (snd (get_pets env st))) = 1 /\
   count is_execute (calls_since st (snd (get_pets env st))) = 1 /\
   exists r, In (EvExecute pets_query, r)
                (calls_since st (snd (get_pets env st)))) /\
  (forall e,
     connect_failure env eng = Some e ->
     count is_acquire (calls_since st (snd (get_pets env st))) = 0 /\
     count is_execute (calls_since st (snd (get_pets env st))) = 0) /\
  (forall rows,
     query_returns env st rows ->
     calls_since st (snd (get_pets env st))
     = [(EvConnect, None); (EvExecute pets_query, None);
        (EvFetchall, None); (EvClose, None)]) /\
  Forall view_call (calls_since st (snd (get_pets env st))).
Proof.
  intros Hdb.
  split; [|split; [|split; [|split]]].
  - rewrite get_pets_run, Hdb.
    destruct (connect_failure env eng) as [e|]; cbn [snd];
      [|destruct (execute_result env pets_query) as [res|e]; cbn [snd]];
      now rewrite calls_since_log_all.
  - intros Hconn. rewrite get_pets_run, Hdb, Hconn.
    destruct (execute_result env pets_query) as [res|e]; cbn [snd];
      rewrite calls_since_log_all; repeat split;
      eexists; right; left; reflexivity.
  - intros e Hconn. rewrite get_pets_run, Hdb, Hconn; cbn [snd].
    now rewrite calls_since_log_all.
  - intros rows (eng' & res & Hdb' & Hconn & Hexec & Hrows).
    rewrite get_pets_run, Hdb', Hconn, Hexec, Hrows; cbn [snd failure].
    now rewrite calls_since_log_all.
  - apply get_pets_view_calls.
Qed.

(** ** The response *)

(** C9. The view reads nothing from the request and is a function of the
    rows the database returns: serving another request in the same
    deployment and state gives the same result and the same state, and two
    invocations whose queries return the same rows, in whatever
    deployments and states, give the same status and body. *)
Theorem response_depends_on_rows_only :
  (forall env st r, get_pets (with_request r env) st = get_pets env st) /\
  (forall env1 st1 env2 st2 rows,
     query_returns env1 st1 rows ->
     query_returns env2 st2 rows ->
     fst (get_pets env1 st1) = fst (get_pets env2 st2)).
Proof.
  split.
  - intros env st r. now rewrite !get_pets_run.
  - intros env1 st1 env2 st2 rows
      (eng1 & res1 & Hdb1 & Hconn1 & Hexec1 & Hrows1)
      (eng2 & res2 & Hdb2 & Hconn2 & Hexec2 & Hrows2).
    rewrite !get_pets_run.
    now rewrite Hdb1, Hconn1, Hexec1, Hrows1, Hdb2, Hconn2, Hexec2, Hrows2.
Qed.

(** C1, as the view has it.  When the fixed query returns [rows], each
    with its two columns, and the encoder accepts their cells, [get_pets]
    returns status 200 and the JSON array whose i-th element is the
    object with [id] the first and [name] the second column of the i-th
    row, in the order of the rows: an integer cell as that number, a
    string cell as that string, NULL as null; the array is as long as the
    result set, and the empty result set gives the empty array.  When the
    encoder refuses a cell, [get_pets] raises [TypeError]. *)
Theorem get_pets_returns_rows env st rows :
  query_returns env st rows ->
  two_columns rows ->
  (serializable_rows rows = true ->
   exists elems,
     fst (get_pets env st) = Ok (mkResponse 200 (Some (JArray elems))) /\
     length elems = length rows /\
     (forall i row,
        nth_error rows i = Some row ->
        exists id name j_id j_name,
          nth_error row 0 = Some id /\ nth_error row 1 = Some name /\
          rendered_as id j_id /\ rendered_as name j_name /\
          nth_error elems i = Some (pet_json j_id j_name)) /\
     (rows = [] -> elems = [])) /\
  (serializable_rows rows = false ->
   fst (get_pets env st) = Raise TypeError).
Proof.
  intros (eng & res & Hdb & Hconn & Hexec & Hrows) Hcols.
  rewrite get_pets_run, Hdb, Hconn, Hexec, Hrows; cbn [fst].
  pose proof (pets_of_rows_two_columns rows Hcols) as Hps.
  rewrite Hps, (pets_serializable rows _ Hps).
  split; intros ->; [|reflexivity].
  exists (map (fun row : Row =>
                 pet_json (jsonify (nth 0 row PyNone))
                          (jsonify (nth 1 row PyNone))) rows).
  split; [cbn [jsonify]; rewrite map_map; reflexivity|].
  split; [apply length_map|]. split.
  - intros i row Hi.
    assert (Hrow : 2 <= length row).
    { unfold two_columns in Hcols. rewrite Forall_forall in Hcols.
      apply Hcols. eapply nth_error_In; eassumption. }
    destruct row as [|id [|name more]]; cbn in Hrow; try lia.
    exists id, name, (jsonify id), (jsonify name).
    split; [reflexivity|]. split; [reflexivity|].
    split; [apply rendered_as_jsonify|].
    split; [apply rendered_as_jsonify|].
    apply (map_nth_error
             (fun row : Row =>
                pet_json (jsonify (nth 0 row PyNone))
                         (jsonify (nth 1 row PyNone)))
             i rows Hi).
  - now intros ->.
Qed.

(** C5, as the view has it.  Every object of the response array of
    [get_pets] has exactly the keys [id] and [name], whose values are the
    first and the second column of the corresponding row: the value of
    [id] is the integer of the column when the column holds an [int], the
    value of [name] the string of the column when the column holds a
    [str], and a NULL column is given as null; so the objects are
    [{id: integer, name: string}] whenever the rows are. *)
Theorem pets_mirror_the_rows env st rows elems :
  query_returns env st rows ->
  fst (get_pets env st) = Ok (mkResponse 200 (Some (JArray elems))) ->
  Forall2 (fun (row : Row) obj =>
             keys obj = ["id"; "name"]%string /\
             exists id name j_id j_name,
               nth_error row 0 = Some id /\ nth_error row 1 = Some name /\
               obj = JObject [("id"%string, j_id); ("name"%string, j_name)] /\
               rendered_as id j_id /\ rendered_as name j_name)
          rows elems /\
  (Forall (fun row : Row =>
             exists z s more, row = PyInt z :: PyStr s :: more) rows ->
   Forall typed_pet elems).
Proof.
  intros (eng & res & Hdb & Hconn & Hexec & Hrows).
  rewrite get_pets_run, Hdb, Hconn, Hexec, Hrows; cbn [fst].
  destruct (pets_of_rows rows) as [ps|] eqn:Hps; [|discriminate].
  destruct (json_serializable (PyList ps)); [|discriminate].
  cbn [jsonify]. intros [= <-].
  pose proof (pets_of_rows_cells rows ps Hps) as Hcells. clear Hps Hrows.
  assert (Hall : Forall2
            (fun (row : Row) obj =>
               keys obj = ["id"; "name"]%string /\
               exists id name j_id j_name,
                 nth_error row 0 = Some id /\ nth_error row 1 = Some name /\
                 obj = JObject [("id"%string, j_id);
                                ("name"%string, j_name)] /\
                 rendered_as id j_id /\ rendered_as name j_name)
            rows (map jsonify ps)).
  { induction Hcells as [|row p rest ps' (id & name & Hid & Hname & ->) _ IH];
      cbn [map]; constructor; [|exact IH].
    split; [reflexivity|].
    exists id, name, (jsonify id), (jsonify name).
    repeat split; try assumption; apply rendered_as_jsonify. }
  split; [exact Hall|].
  intros Htyped. clear Hcells.
  induction Hall as [|row obj rest objs (_ & Hobj) _ IH];
    constructor.
  - apply Forall_inv in Htyped. destruct Htyped as (z & s & more & ->).
    destruct Hobj as (id & name & j_id & j_name & Hid & Hname & ->
                      & (_ & Hint & _) & (_ & _ & Hstr & _)).
    cbn in Hid, Hname. injection Hid as <-. injection Hname as <-.
    exists z, s. now rewrite (Hint z eq_refl), (Hstr s eq_refl).
  - apply IH. now apply Forall_inv_tail in Htyped.
Qed.

(** ** The pool and the secrets *)

(** C6. Every call of [create_engine] by [init_connection_engine] has the
    keyword arguments [pool_size=5, max_overflow=2, pool_timeout=30,
    pool_recycle=1800] and a URL of the MySQL dialect whose only query
    argument is [unix_socket], the path [/cloudsql/{connection
    identifier}] of the decoded fourth secret; the pool returned is the
    engine of that call. *)
Theorem engine_configuration env st :
  (forall u c r,
     In (EvCreateEngine u c, r)
        (calls_since st (snd (init_connection_engine env st))) ->
     c = mk_db_config 5 2 30 1800 /\
     drivername u = "mysql+pymysql"%string /\
     get_backend_name (drivername u) = "mysql"%string /\
     exists conn,
       secret_store env
         (requested_name env "cloud_sql_connection_name_secret") = Ok conn /\
       valid_utf8 conn = true /\
       query u = [("unix_socket"%string,
                   unix_socket_path "/cloudsql" (string_of_list_byte conn))])
  /\
  (forall pool,
     fst (init_connection_engine env st) = Ok pool ->
     In (EvCreateEngine (engine_url pool) (engine_config pool), None)
        (calls_since st (snd (init_connection_engine env st))) /\
     pool_size (engine_config pool) = 5%Z /\
     max_overflow (engine_config pool) = 2%Z /\
     pool_timeout (engine_config pool) = 30%Z /\
     pool_recycle (engine_config pool) = 1800%Z).
Proof.
  rewrite init_connection_engine_run.
  secret_cases env; engine_cases env; cbn [fst snd];
    rewrite calls_since_log_all; unfold secret_keys, ask, client_call;
    cbn [map app];
    (split; [intros u c r Hin | intros pool Hpool; try discriminate]).
  all: try (cbn in Hin;
            repeat (destruct Hin as [Hin|Hin]; try discriminate);
            try contradiction).
  all: try (injection Hin as <- <- <-; repeat split;
            eexists; split; [reflexivity|]; split; [|reflexivity];
            now apply andb_prop in Hvalid as [_ Hvalid]).
  injection Hpool as <-. cbn. auto 10.
Qed.

(** C7. [init_connection_engine] asks the secret store for nothing but
    the four names [projects/{PROJECT_ID}/secrets/{key}/versions/latest]
    of the keys [db_user_secret], [db_password_secret], [db_name_secret]
    and [cloud_sql_connection_name_secret], in this order, each at most
    once, stopping at the first fetch that fails; when the client is
    created and the four fetches succeed it has asked for exactly these
    four, and it decodes each
    payload as UTF-8: if one of them is not well-formed it raises
    [UnicodeDecodeError], and otherwise the user, the password, the
    database and the socket path it gives to [create_engine] are the four
    decoded texts. *)
Theorem secrets_requested env st :
  let names :=
    map (secret_resource_name (format_field (PROJECT_ID env))) secret_keys in
  let calls := calls_since st (snd (init_connection_engine env st)) in
  (exists rest, requested_names calls ++ rest = names) /\
  (forall user pass name conn,
     client_failure env = None ->
     map (secret_store env) names = [Ok user; Ok pass; Ok name; Ok conn] ->
     requested_names calls = names /\
     if valid_utf8 user && valid_utf8 pass && valid_utf8 name
        && valid_utf8 conn
     then
       exists u c r,
         In (EvCreateEngine u c, r) calls /\
         username u = string_of_list_byte user /\
         password u = string_of_list_byte pass /\
         database u = string_of_list_byte name /\
         query u = [("unix_socket"%string,
                     unix_socket_path "/cloudsql" (string_of_list_byte conn))]
     else fst (init_connection_engine env st) = Raise UnicodeDecodeError).
Proof.
  intros names calls. subst names calls.
  rewrite init_connection_engine_run.
  unfold secret_keys; cbn [map]. fold (requested_name env).
  change (secret_resource_name (format_field (PROJECT_ID env)))
    with (requested_name env).
  split.
  - secret_cases env; engine_cases env; cbn [fst snd];
      rewrite calls_since_log_all; unfold ask, client_call; cbn;
      eexists; cbn; reflexivity.
  - intros user pass name conn Hclient [= H1 H2 H3 H4].
    rewrite Hclient, H1, H2, H3, H4.
    destruct (valid_utf8 user && valid_utf8 pass && valid_utf8 name
              && valid_utf8 conn); cbn [fst snd];
      rewrite calls_since_log_all; unfold ask, client_call; cbn;
      (split; [reflexivity|]).
    + eexists _, _, _. split; [do 5 right; left; reflexivity|].
      repeat split.
    + reflexivity.
Qed.

(** ** The hook, request after request *)

(** Once the hook has run, a request neither builds an engine nor touches
    [db]; and a first request that is answered with status 200 has bound
    [db] and set the flag. *)
Lemma pool_is_built_by_the_first_request_only env st :
  (got_first_request st = true ->
   db (snd (wsgi_app env st)) = db st /\
   forall u c r,
     ~ In (EvCreateEngine u c, r) (calls_since st (snd (wsgi_app env st)))) /\
  (got_first_request st = false ->
   status (fst (wsgi_app env st)) = 200%Z ->
   got_first_request (snd (wsgi_app env st)) = true /\
   exists pool,
     fst (init_connection_engine env st) = Ok pool /\
     db (snd (wsgi_app env st)) = Some pool).
Proof.
  unfold wsgi_app, full_dispatch_request, bind,
    try_trigger_before_first_request_functions.
  split; intros Hflag; rewrite Hflag.
  - destruct (get_pets_calls env st) as (cs & Hst & _).
    assert (Hview : Forall view_call (calls_since st (snd (get_pets env st))))
      by apply (get_pets_view_calls env st).
    destruct (get_pets env st) as [[resp|e] st1]; cbn in Hst, Hview |- *;
      subst st1; (split; [reflexivity|]);
      intros u c r Hin; rewrite Forall_forall in Hview;
      pose proof (Hview _ Hin) as H; unfold view_call in H; cbn in H;
      destruct H as [H|[H|[H|H]]]; discriminate.
  - rewrite create_connection_run.
    destruct (init_connection_engine env st) as [[pool|e] st1];
      cbn beta iota; [|discriminate].
    destruct (get_pets_calls env (set_got_first_request true
                                    (set_db pool st1))) as (cs & Hst & _).
    destruct (get_pets env (set_got_first_request true (set_db pool st1)))
      as [[resp|e] st2]; cbn in Hst |- *; [|discriminate].
    intros _. subst st2. split; [reflexivity|]. now exists pool.
Qed.

(** * Runs *)

(** The strict UTF-8 codec on a few payloads: ASCII and a two-byte
    sequence are accepted; an overlong form, a lone continuation byte, a
    surrogate and a truncated sequence are not. *)
Example valid_utf8_examples :
  valid_utf8 (list_byte_of_string "root") = true /\
  valid_utf8 [xc3; xa9] = true /\
  valid_utf8 [xe2; x82; xac] = true /\
  valid_utf8 [xf0; x9f; x90; xb6] = true /\
  valid_utf8 [xc0; x80] = false /\
  valid_utf8 [x80] = false /\
  valid_utf8 [xed; xa0; x80] = false /\
  valid_utf8 [xe2; x82] = false /\
  valid_utf8 [xf4; x90; x80; x80] = false.
Proof. repeat split. Qed.

(** The first request to a healthy deployment: the four secrets are
    fetched, the engine is built and the table is read. *)
Example first_request_run :
  wsgi_app (demo_env two_pets) fresh_state =
  (mkResponse 200
     (Some (JArray [JObject [("id"%string, JNumber 1);
                             ("name"%string, JString "Rex")];
                    JObject [("id"%string, JNumber 2);
                             ("name"%string, JString "Whiskers")]])),
   mkState (Some demo_engine) 0 true
     [(EvSecretManagerClient, None);
      (EvAccessSecret "projects/demo/secrets/db_user_secret/versions/latest",
       None);
      (EvAccessSecret
         "projects/demo/secrets/db_password_secret/versions/latest", None);
      (EvAccessSecret "projects/demo/secrets/db_name_secret/versions/latest",
       None);
      (EvAccessSecret
         "projects/demo/secrets/cloud_sql_connection_name_secret/versions/latest",
       None);
      (EvCreateEngine
         (mkURL "mysql+pymysql" "root" "hunter2" "petsdb"
            [("unix_socket"%string,
              "/cloudsql/demo:us-central1:pets"%string)])
         (mk_db_config 5 2 30 1800), None);
      (EvConnect, None);
      (EvExecute "SELECT id, name from pets;", None);
      (EvFetchall, None);
      (EvClose, None)]).
Proof. vm_compute. reflexivity. Qed.

(** An empty table. *)
Example empty_table_run :
  fst (get_pets (demo_env []) ready_state)
  = Ok (mkResponse 200 (Some (JArray []))).
Proof. reflexivity. Qed.

(** A cell of another type is written as the encoder renders it: a
    [date] as the string of its HTTP date. *)
Example date_cell_run :
  fst (get_pets
         (demo_env
            [ [PyInt 1;
               PyOther "date"
                 (Some (JString "Tue, 03 Nov 2026 00:00:00 GMT"))] ])
         ready_state)
  = Ok (mkResponse 200
          (Some (JArray
                   [JObject
                      [("id"%string, JNumber 1);
                       ("name"%string,
                        JString "Tue, 03 Nov 2026 00:00:00 GMT")]]))).
Proof. reflexivity. Qed.

(** A binary name: the statement is executed and the connection released
    before the encoder raises. *)
Example binary_name_run :
  get_pets (demo_env binary_name) ready_state
  = (Raise TypeError,
     mkState (Some demo_engine) 0 true
       [(EvConnect, None); (EvExecute "SELECT id, name from pets;", None);
        (EvFetchall, None); (EvClose, None)]).
Proof. reflexivity. Qed.

(** A project without a default project id asks for [projects/None/...]. *)
Example no_project_run :
  requested_name (mkEnv None demo_request None demo_secrets (fun _ _ => None)
                    (fun _ => None) (fun _ => Raise IndexError))
    "db_user_secret"
  = "projects/None/secrets/db_user_secret/versions/latest"%string.
Proof. reflexivity. Qed.

Lemma demo_query_returns rows :
  query_returns (demo_env rows) ready_state rows.
Proof.
  exists demo_engine, (mkResultProxy (Ok rows)).
  repeat split.
Defined.

Lemma two_pets_two_columns : two_columns two_pets.
Proof. repeat constructor. Defined.

Lemma unnamed_pet_two_columns : two_columns unnamed_pet.
Proof. repeat constructor. Defined.

(** C1, as the view has it, at the table of Rex and Whiskers. *)
Lemma get_pets_returns_rows_witness :
  query_returns (demo_env two_pets) ready_state two_pets /\
  two_columns two_pets /\
  serializable_rows two_pets = true /\
  fst (get_pets (demo_env two_pets) ready_state)
  = Ok (mkResponse 200
          (Some (JArray [JObject [("id"%string, JNumber 1);
                                  ("name"%string, JString "Rex")];
                         JObject [("id"%string, JNumber 2);
                                  ("name"%string, JString "Whiskers")]]))).
Proof.
  split; [exact (demo_query_returns two_pets)|].
  split; [exact two_pets_two_columns|].
  split; [reflexivity|].
  destruct (proj1 (get_pets_returns_rows (demo_env two_pets) ready_state
                     two_pets (demo_query_returns two_pets)
                     two_pets_two_columns) eq_refl)
    as (elems & Hresp & Hlen & Hnth & _).
  destruct (Hnth 0 _ eq_refl)
    as (id0 & name0 & j0 & k0 & Hid0 & Hname0
        & (_ & Hint0 & _) & (_ & _ & Hstr0 & _) & He0).
  destruct (Hnth 1 _ eq_refl)
    as (id1 & name1 & j1 & k1 & Hid1 & Hname1
        & (_ & Hint1 & _) & (_ & _ & Hstr1 & _) & He1).
  cbn in Hid0, Hname0, Hid1, Hname1.
  injection Hid0 as <-. injection Hname0 as <-.
  injection Hid1 as <-. injection Hname1 as <-.
  rewrite (Hint0 _ eq_refl), (Hstr0 _ eq_refl) in He0.
  rewrite (Hint1 _ eq_refl), (Hstr1 _ eq_refl) in He1.
  destruct elems as [|e0 [|e1 [|e2 more]]]; cbn in Hlen; try discriminate.
  cbn in He0, He1. injection He0 as ->. injection He1 as ->.
  exact Hresp.
Defined.

(** C1 as the specification has it fails at a table whose name column is
    binary: the query returns the row [(1, b"Rex")], the encoder refuses
    the [bytes] cell, [get_pets] raises [TypeError] and the request is
    answered with the error response, not with a JSON array. *)
Lemma binary_name_raises_type_error :
  query_returns (demo_env binary_name) ready_state binary_name /\
  two_columns binary_name /\
  fst (get_pets (demo_env binary_name) ready_state) = Raise TypeError /\
  status (fst (wsgi_app (demo_env binary_name) ready_state)) = 500%Z /\
  ~ (exists elems,
       fst (get_pets (demo_env binary_name) ready_state)
       = Ok (mkResponse 200 (Some (JArray elems)))).
Proof.
  split; [exact (demo_query_returns binary_name)|].
  split; [repeat constructor|].
  split; [reflexivity|]. split; [reflexivity|].
  intros [elems Habs]. discriminate.
Qed.

(** C2 at a deployment that may not read its secrets: the first request
    is answered with the error response and [db] stays unbound. *)
Lemma failures_propagate_witness :
  got_first_request fresh_state = false /\
  fst (create_connection forbidden_env fresh_state)
  = Raise (ExternalError "PermissionDenied") /\
  fst (wsgi_app forbidden_env fresh_state) = internal_server_error /\
  db (snd (wsgi_app forbidden_env fresh_state)) = db fresh_state.
Proof.
  split; [reflexivity|]. split; [reflexivity|].
  exact (proj1 (proj2 (proj2 (proj2
           (failures_propagate forbidden_env fresh_state))))
           (ExternalError "PermissionDenied") eq_refl eq_refl).
Defined.

(** C4 at a database that rejects the statement: the connection is
    released all the same. *)
Lemma connection_released_witness :
  In (EvConnect, None)
     (calls_since ready_state (snd (get_pets broken_query_env ready_state)))
  /\
  exists mid,
    calls_since ready_state (snd (get_pets broken_query_env ready_state))
    = (EvConnect, None) :: mid ++ [(EvClose, None)] /\
    count is_acquire mid = 0 /\ count is_close mid = 0.
Proof.
  split; [left; reflexivity|].
  apply (proj2 (proj2 (connection_released broken_query_env ready_state))).
  left; reflexivity.
Defined.

(** C5, as the view has it, at the table with the unnamed pet. *)
Lemma pets_mirror_the_rows_witness :
  query_returns (demo_env unnamed_pet) ready_state unnamed_pet /\
  fst (get_pets (demo_env unnamed_pet) ready_state)
  = Ok (mkResponse 200
          (Some (JArray [JObject [("id"%string, JNumber 1);
                                  ("name"%string, JNull)]]))) /\
  Forall2 (fun (row : Row) obj => keys obj = ["id"; "name"]%string)
    unnamed_pet
    [JObject [("id"%string, JNumber 1); ("name"%string, JNull)]].
Proof.
  split; [exact (demo_query_returns unnamed_pet)|].
  split; [reflexivity|].
  destruct (pets_mirror_the_rows (demo_env unnamed_pet) ready_state
              unnamed_pet _ (demo_query_returns unnamed_pet) eq_refl)
    as (Hall & _).
  apply Forall2_cons_iff in Hall as [[Hkeys _] _].
  constructor; [exact Hkeys|constructor].
Defined.

(** C5 as the specification has it fails at the table with the unnamed
    pet: the query returns the row [(1, NULL)], the view answers 200 with
    [{"id": 1, "name": null}], and that object has no string for name. *)
Lemma null_name_is_not_a_string :
  query_returns (demo_env unnamed_pet) ready_state unnamed_pet /\
  two_columns unnamed_pet /\
  fst (get_pets (demo_env unnamed_pet) ready_state)
  = Ok (mkResponse 200
          (Some (JArray [JObject [("id"%string, JNumber 1);
                                  ("name"%string, JNull)]]))) /\
  ~ (forall elems,
       fst (get_pets (demo_env unnamed_pet) ready_state)
       = Ok (mkResponse 200 (Some (JArray elems))) ->
       Forall typed_pet elems).
Proof.
  split; [exact (demo_query_returns unnamed_pet)|].
  split; [exact unnamed_pet_two_columns|].
  split; [reflexivity|].
  intros Hclaim.
  specialize (Hclaim _ eq_refl).
  apply Forall_inv in Hclaim. destruct Hclaim as (z & s & Habs).
  discriminate.
Qed.

(** C6 at the healthy deployment. *)
Lemma engine_configuration_witness :
  fst (init_connection_engine (demo_env []) fresh_state) = Ok demo_engine /\
  In (EvCreateEngine (engine_url demo_engine) (engine_config demo_engine),
      None)
     (calls_since fresh_state
        (snd (init_connection_engine (demo_env []) fresh_state))) /\
  pool_size (engine_config demo_engine) = 5%Z /\
  max_overflow (engine_config demo_engine) = 2%Z /\
  pool_timeout (engine_config demo_engine) = 30%Z /\
  pool_recycle (engine_config demo_engine) = 1800%Z.
Proof.
  split; [reflexivity|].
  exact (proj2 (engine_configuration (demo_env []) fresh_state)
           demo_engine eq_refl).
Defined.

(** C7 at the healthy deployment. *)
Lemma secrets_requested_witness :
  client_failure (demo_env []) = None /\
  map (secret_store (demo_env []))
    (map (secret_resource_name (format_field (PROJECT_ID (demo_env []))))
       secret_keys)
  = [Ok (list_byte_of_string "root"); Ok (list_byte_of_string "hunter2");
     Ok (list_byte_of_string "petsdb");
     Ok (list_byte_of_string "demo:us-central1:pets")] /\
  requested_names
    (calls_since fresh_state
       (snd (init_connection_engine (demo_env []) fresh_state)))
  = map (secret_resource_name "demo") secret_keys.
Proof.
  split; [reflexivity|]. split; [reflexivity|].
  exact (proj1 (proj2 (secrets_requested (demo_env []) fresh_state)
                  _ _ _ _ eq_refl eq_refl)).
Defined.

(** C8 at the deployment that may not read its secrets. *)
Lemma create_connection_atomic_witness :
  fst (init_connection_engine forbidden_env fresh_state)
  = Raise (ExternalError "PermissionDenied") /\
  fst (create_connection forbidden_env fresh_state)
  = Raise (ExternalError "PermissionDenied") /\
  db (snd (create_connection forbidden_env fresh_state)) = db fresh_state.
Proof.
  split; [reflexivity|].
  exact (proj1 (proj2 (create_connection_atomic forbidden_env fresh_state))
           _ eq_refl).
Defined.

(** C9 at two requests with different content, served in different
    states. *)
Lemma response_depends_on_rows_only_witness :
  query_returns (demo_env two_pets) ready_state two_pets /\
  query_returns (with_request other_request (demo_env two_pets)) busy_state
    two_pets /\
  fst (get_pets (demo_env two_pets) ready_state)
  = fst (get_pets (with_request other_request (demo_env two_pets))
           busy_state).
Proof.
  assert (H : query_returns (with_request other_request (demo_env two_pets))
                busy_state two_pets).
  { exists demo_engine, (mkResultProxy (Ok two_pets)). repeat split. }
  split; [exact (demo_query_returns two_pets)|].
  split; [exact H|].
  exact (proj2 response_depends_on_rows_only _ _ _ _ two_pets
           (demo_query_returns two_pets) H).
Defined.

(** C10, as the view has it, at the table of Rex and Whiskers. *)
Lemma one_connection_one_statement_witness :
  db ready_state = Some demo_engine /\
  connect_failure (demo_env two_pets) demo_engine = None /\
  count is_connect
    (calls_since ready_state (snd (get_pets (demo_env two_pets) ready_state)))
  = 1 /\
  count is_execute
    (calls_since ready_state (snd (get_pets (demo_env two_pets) ready_state)))
  = 1.
Proof.
  split; [reflexivity|]. split; [reflexivity|].
  destruct (one_connection_one_statement (demo_env two_pets) ready_state
              demo_engine eq_refl) as (Hconnect & Hok & _).
  split; [exact Hconnect|].
  exact (proj1 (proj2 (Hok eq_refl))).
Defined.

(** C10 as the specification has it fails at an exhausted pool: the
    checkout raises after the timeout, so the invocation acquires no
    connection and executes no statement. *)
Lemma exhausted_pool_executes_nothing :
  db ready_state = Some demo_engine /\
  fst (get_pets exhausted_env ready_state)
  = Raise (ExternalError "TimeoutError") /\
  calls_since ready_state (snd (get_pets exhausted_env ready_state))
  = [(EvConnect, Some (ExternalError "TimeoutError"))] /\
  ~ (count is_acquire
       (calls_since ready_state (snd (get_pets exhausted_env ready_state)))
     = 1 /\
     count is_execute
       (calls_since ready_state (snd (get_pets exhausted_env ready_state)))
     = 1).
Proof.
  repeat split. intros [H _]. discriminate.
Qed.

(** * Further properties of [main.py] *)

(** ** Helpers *)

Lemma append_inj_l (p a b : string) :
  (p ++ a)%string = (p ++ b)%string -> a = b.
Proof.
  induction p as [|ch p IH]; cbn; intros H; [exact H|].
  injection H as H. now apply IH.
Qed.

Lemma log_all_log_all cs cs' st :
  log_all cs' (log_all cs st) = log_all (cs ++ cs') st.
Proof. unfold log_all; cbn. now rewrite app_assoc. Qed.

Lemma log_all_nil st : log_all [] st = st.
Proof. unfold log_all. rewrite app_nil_r. now destruct st. Qed.

Lemma count_app p cs cs' : count p (cs ++ cs') = count p cs + count p cs'.
Proof. unfold count. now rewrite filter_app, length_app. Qed.

Lemma split_cons_inv (pre post l : list call) (c x : call) :
  pre ++ c :: post = x :: l ->
  (pre = [] /\ c = x /\ post = l) \/
  (exists pre', pre = x :: pre' /\ pre' ++ c :: post = l).
Proof.
  destruct pre as [|y pre']; cbn; intros H; injection H as -> H.
  - left. now subst.
  - right. now exists pre'.
Qed.

Lemma split_nil_inv (pre post : list call) (c : call) :
  pre ++ c :: post = [] -> False.
Proof. destruct pre; discriminate. Qed.

(** One invocation of the view: it only extends the log, it releases what
    it acquires and it executes at most one statement. *)
Lemma get_pets_step env st :
  exists cs,
    snd (get_pets env st) = log_all cs st /\
    count is_acquire cs = count is_close cs /\
    count is_connect cs <= 1 /\
    count is_execute cs <= 1.
Proof.
  rewrite get_pets_run.
  destruct (db st) as [eng|]; cbn [snd].
  - destruct (connect_failure env eng) as [e|]; cbn [snd];
      [|destruct (execute_result env pets_query) as [res|e]; cbn [snd]];
      (eexists; split; [reflexivity|]); cbn; repeat split; lia.
  - exists []. rewrite log_all_nil. cbn. repeat split; lia.
Qed.

(** The names asked for are a prefix of the four names. *)
Lemma requested_names_prefix env st :
  exists rest,
    requested_names (calls_since st (snd (init_connection_engine env st)))
    ++ rest
    = map (requested_name env) secret_keys.
Proof.
  rewrite init_connection_engine_run.
  secret_cases env; engine_cases env; cbn [fst snd];
    rewrite calls_since_log_all; unfold ask, client_call; cbn;
    eexists; cbn; reflexivity.
Qed.

Lemma requested_name_distinct env :
  NoDup (map (requested_name env) secret_keys).
Proof.
  unfold secret_keys, requested_name, secret_resource_name; cbn [map].
  repeat (apply NoDup_cons;
          [cbn [In]; intros H;
           repeat (destruct H as [H|H]); try contradiction;
           apply (append_inj_l "projects/") in H;
           apply append_inj_l in H; discriminate|]).
  apply NoDup_nil.
Qed.

(** ** Initialisation, further *)

(** X1. When the Secret Manager client cannot be created,
    [create_connection] raises the exception of the constructor: its only
    call is the constructor, no secret is asked for, no engine is built,
    and [db] stays as it was. *)
Theorem client_failure_stops_initialisation env st e :
  client_failure env = Some e ->
  fst (create_connection env st) = Raise e /\
  calls_since st (snd (create_connection env st))
  = [(EvSecretManagerClient, Some e)] /\
  requested_names (calls_since st (snd (create_connection env st))) = [] /\
  count is_create_engine (calls_since st (snd (create_connection env st)))
  = 0 /\
  db (snd (create_connection env st)) = db st.
Proof.
  intros Hclient.
  rewrite create_connection_run, init_connection_engine_run, Hclient.
  cbn [fst snd]. rewrite calls_since_log_all.
  unfold client_call. rewrite Hclient. repeat split.
Qed.

(** X2. Whatever the project id, the four secret resource names are
    pairwise distinct, and a run of [init_connection_engine] asks for no
    name twice and for at most four names. *)
Theorem no_secret_requested_twice env st :
  NoDup (map (secret_resource_name (format_field (PROJECT_ID env)))
           secret_keys) /\
  NoDup (requested_names
           (calls_since st (snd (init_connection_engine env st)))) /\
  length (requested_names
            (calls_since st (snd (init_connection_engine env st)))) <= 4.
Proof.
  pose proof (requested_name_distinct env) as Hdistinct.
  destruct (requested_names_prefix env st) as (rest & Hprefix).
  split; [exact Hdistinct|].
  rewrite <- Hprefix in Hdistinct. split.
  - now apply NoDup_app_remove_r in Hdistinct.
  - apply (f_equal (@length string)) in Hprefix.
    rewrite length_app, length_map in Hprefix.
    unfold secret_keys in Hprefix. cbn [length] in Hprefix. lia.
Qed.

(** X3. [init_connection_engine] builds an engine only from complete
    credentials: a call of [create_engine] implies that the client was
    created, that the four secrets were fetched and that the four
    payloads are well-formed UTF-8, which are then the user, the password
    and the database of the URL; it is the only such call of the run and
    the last call of the run. *)
Theorem engine_needs_all_credentials env st u c r :
  In (EvCreateEngine u c, r)
     (calls_since st (snd (init_connection_engine env st))) ->
  client_failure env = None /\
  (exists user pass name conn,
     map (secret_store env)
       (map (secret_resource_name (format_field (PROJECT_ID env)))
          secret_keys)
     = [Ok user; Ok pass; Ok name; Ok conn] /\
     valid_utf8 user = true /\ valid_utf8 pass = true /\
     valid_utf8 name = true /\ valid_utf8 conn = true /\
     username u = string_of_list_byte user /\
     password u = string_of_list_byte pass /\
     database u = string_of_list_byte name) /\
  count is_create_engine
    (calls_since st (snd (init_connection_engine env st))) = 1 /\
  exists pre,
    calls_since st (snd (init_connection_engine env st))
    = pre ++ [(EvCreateEngine u c, r)].
Proof.
  unfold secret_keys; cbn [map].
  change (secret_resource_name (format_field (PROJECT_ID env)))
    with (requested_name env).
  rewrite init_connection_engine_run.
  secret_cases env; engine_cases env; cbn [fst snd];
    rewrite calls_since_log_all; unfold secret_keys, ask, client_call;
    cbn [map app]; intros Hin; cbn in Hin;
    repeat (destruct Hin as [Hin|Hin]; try discriminate);
    try contradiction;
    injection Hin as <- <- <-;
    (split; [reflexivity|]);
    (split;
     [exists a, a0, a1, a2;
      apply andb_prop in Hvalid as [Hvalid Hconn];
      apply andb_prop in Hvalid as [Hvalid Hname];
      apply andb_prop in Hvalid as [Huser Hpass];
      repeat split; assumption
     |]);
    (split; [reflexivity|]);
    eexists [_; _; _; _; _]; reflexivity.
Qed.

(** X9. [create_connection] never touches the database: its calls are the
    client constructor, secret fetches and [create_engine], at most six
    of them; it checks out no connection, executes no statement, and
    leaves the number of connections on loan and the first-request flag as
    they were. *)
Theorem create_connection_makes_no_database_call env st :
  Forall init_call (calls_since st (snd (create_connection env st))) /\
  length (calls_since st (snd (create_connection env st))) <= 6 /\
  count is_connect (calls_since st (snd (create_connection env st))) = 0 /\
  count is_execute (calls_since st (snd (create_connection env st))) = 0 /\
  checked_out (snd (create_connection env st)) = checked_out st /\
  got_first_request (snd (create_connection env st)) = got_first_request st.
Proof.
  rewrite create_connection_run, init_connection_engine_run.
  unfold init_call.
  secret_cases env; engine_cases env; cbn [fst snd];
    rewrite ?calls_since_set_db, calls_since_log_all;
    unfold secret_keys, ask, client_call; cbn;
    (split;
     [repeat (apply Forall_cons; [cbn; eauto 6|]); apply Forall_nil|]);
    repeat split; lia.
Qed.

(** ** Initialisation followed by the view *)

(** X4. [get_pets] run after a successful [create_connection] uses the
    pool just built, whatever [db] was bound to before: it returns or
    raises what it does in a process whose [db] is that pool; afterwards
    [db] is the new pool, no connection is left on loan, and the calls
    are those of the initialisation followed by those of the view, which
    are the checkout, the statement, [fetchall] and the release when the
    checkout from the new pool, the statement and [fetchall] succeed. *)
Theorem view_uses_the_pool_just_built env st pool :
  fst (init_connection_engine env st) = Ok pool ->
  fst (bind create_connection (fun _ => get_pets) env st)
  = fst (get_pets env (set_db pool st)) /\
  db (snd (bind create_connection (fun _ => get_pets) env st)) = Some pool /\
  checked_out (snd (bind create_connection (fun _ => get_pets) env st))
  = checked_out st /\
  calls_since st (snd (bind create_connection (fun _ => get_pets) env st))
  = calls_since st (snd (init_connection_engine env st))
    ++ calls_since (set_db pool st) (snd (get_pets env (set_db pool st))) /\
  (forall res rows,
     connect_failure env pool = None ->
     execute_result env pets_query = Ok res ->
     rp_fetchall res = Ok rows ->
     calls_since st (snd (bind create_connection (fun _ => get_pets) env st))
     = calls_since st (snd (init_connection_engine env st))
       ++ [(EvConnect, None); (EvExecute pets_query, None);
           (EvFetchall, None); (EvClose, None)]).
Proof.
  intros Hpool.
  unfold bind. rewrite create_connection_run.
  destruct (init_connection_engine_calls env st) as (cs & Hst & _).
  destruct (init_connection_engine env st) as [[pool'|e] st1];
    cbn [fst snd] in Hpool, Hst |- *; cbn beta iota; [|discriminate].
  injection Hpool as ->. subst st1.
  rewrite calls_since_log_all, !get_pets_run. cbn [db set_db log_all].
  assert (Htrace : forall cs',
             calls_since st (log_all cs' (set_db pool (log_all cs st)))
             = cs ++ cs').
  { intros cs'. apply calls_since_of_trace. cbn. now rewrite app_assoc. }
  split; [|split; [|split; [|split]]].
  - destruct (connect_failure env pool); [reflexivity|].
    now destruct (execute_result env pets_query).
  - destruct (connect_failure env pool); [reflexivity|].
    now destruct (execute_result env pets_query).
  - destruct (connect_failure env pool); [reflexivity|].
    now destruct (execute_result env pets_query).
  - destruct (connect_failure env pool); cbn [snd];
      [|destruct (execute_result env pets_query); cbn [snd]];
      now rewrite Htrace, calls_since_log_all.
  - intros res rows Hconn Hexec Hrows.
    rewrite Hconn, Hexec, Hrows. cbn [snd failure]. apply Htrace.
Qed.

(** X5. A [create_connection] that raises changes nothing for the view:
    [get_pets] run afterwards returns or raises what it would have without
    it; in particular, in a process where [db] was never bound it raises
    [NameError] without making any call. *)
Theorem failed_initialisation_leaves_the_view_as_it_was env env' st e :
  fst (create_connection env st) = Raise e ->
  fst (get_pets env' (snd (create_connection env st)))
  = fst (get_pets env' st) /\
  (db st = None ->
   fst (get_pets env' (snd (create_connection env st)))
   = Raise (NameError "db") /\
   calls_since (snd (create_connection env st))
     (snd (get_pets env' (snd (create_connection env st)))) = []).
Proof.
  rewrite create_connection_run.
  destruct (init_connection_engine_calls env st) as (cs & Hst & _).
  destruct (init_connection_engine env st) as [[pool|e0] st1];
    cbn [fst snd] in Hst |- *; [discriminate|].
  intros _. subst st1. rewrite !get_pets_run. cbn [db log_all].
  split.
  - destruct (db st) as [eng|]; [|reflexivity].
    destruct (connect_failure env' eng); [reflexivity|].
    now destruct (execute_result env' pets_query).
  - intros ->. cbn [fst snd]. split; [reflexivity|].
    apply calls_since_refl.
Qed.

(** ** The view, further *)

(** X6. The view uses a connection only while it holds it: before every
    statement and every [fetchall] of an invocation there is a successful
    checkout and no release, and after it there is the release. *)
Theorem statements_run_inside_the_connection env st pre c post :
  calls_since st (snd (get_pets env st)) = pre ++ c :: post ->
  uses_connection c ->
  In (EvConnect, None) pre /\
  count is_close pre = 0 /\
  In (EvClose, None) post.
Proof.
  rewrite get_pets_run.
  destruct (db st) as [eng|]; cbn [snd];
    [destruct (connect_failure env eng) as [e|]; cbn [snd];
     [|destruct (execute_result env pets_query) as [res|e]; cbn [snd]]|];
    rewrite ?calls_since_log_all, ?calls_since_refl;
    intros H Huse; symmetry in H;
    repeat (first
              [ apply split_nil_inv in H; contradiction
              | apply split_cons_inv in H;
                destruct H as [(-> & -> & ->) | (? & -> & H)] ]);
    try (destruct Huse as [[sql Huse]|Huse]; cbn in Huse; discriminate);
    cbn; auto 10.
Qed.

(** The view invoked again and again only extends the log, and releases
    what it acquires. *)
Lemma serve_all_step envs :
  forall st,
  exists cs,
    serve_all envs st = log_all cs st /\
    count is_acquire cs = count is_close cs /\
    count is_connect cs <= length envs /\
    count is_execute cs <= length envs.
Proof.
  induction envs as [|env rest IH]; intros st; cbn [serve_all length].
  - exists []. rewrite log_all_nil. cbn. repeat split; lia.
  - destruct (get_pets_step env st) as (cs & -> & Hrel & Hconn & Hexec).
    destruct (IH (log_all cs st)) as (cs' & -> & Hrel' & Hconn' & Hexec').
    exists (cs ++ cs'). rewrite log_all_log_all, !count_app.
    repeat split; lia.
Qed.

(** X7. No connection leaks, however many times and in whatever
    environments the view is invoked: after any sequence of invocations
    the pool has as many connections on loan as before it, [db] is
    unchanged, as many connections were released as were acquired, and
    there was at most one checkout and one statement per invocation. *)
Theorem no_connection_leaks envs st :
  checked_out (serve_all envs st) = checked_out st /\
  db (serve_all envs st) = db st /\
  count is_acquire (calls_since st (serve_all envs st))
  = count is_close (calls_since st (serve_all envs st)) /\
  count is_connect (calls_since st (serve_all envs st)) <= length envs /\
  count is_execute (calls_since st (serve_all envs st)) <= length envs.
Proof.
  destruct (serve_all_step envs st) as (cs & -> & Hrel & Hconn & Hexec).
  rewrite calls_since_log_all. repeat split; assumption.
Qed.


(** ** Runs, further *)

(** X1 at the deployment without application credentials. *)
Lemma client_failure_stops_initialisation_witness :
  client_failure no_credentials_env
  = Some (ExternalError "DefaultCredentialsError") /\
  fst (create_connection no_credentials_env fresh_state)
  = Raise (ExternalError "DefaultCredentialsError") /\
  requested_names
    (calls_since fresh_state
       (snd (create_connection no_credentials_env fresh_state))) = [] /\
  db (snd (create_connection no_credentials_env fresh_state)) = None.
Proof.
  split; [reflexivity|].
  destruct (client_failure_stops_initialisation no_credentials_env
              fresh_state _ eq_refl) as (Hraise & _ & Hnames & _ & Hdb).
  repeat split; assumption.
Defined.

(** X3 at the healthy deployment. *)
Lemma engine_needs_all_credentials_witness :
  In (EvCreateEngine (engine_url demo_engine) (engine_config demo_engine),
      None)
     (calls_since fresh_state
        (snd (init_connection_engine (demo_env []) fresh_state))) /\
  client_failure (demo_env []) = None /\
  count is_create_engine
    (calls_since fresh_state
       (snd (init_connection_engine (demo_env []) fresh_state))) = 1.
Proof.
  assert (Hin : In (EvCreateEngine (engine_url demo_engine)
                      (engine_config demo_engine), None)
                   (calls_since fresh_state
                      (snd (init_connection_engine (demo_env [])
                              fresh_state)))).
  { do 5 right. left. reflexivity. }
  split; [exact Hin|].
  destruct (engine_needs_all_credentials (demo_env []) fresh_state _ _ _ Hin)
    as (Hclient & _ & Hcount & _).
  now split.
Defined.

(** X4 at a process whose [db] was bound to a pool built from other
    secrets. *)
Lemma view_uses_the_pool_just_built_witness :
  fst (init_connection_engine (demo_env two_pets) stale_state)
  = Ok demo_engine /\
  db stale_state <> Some demo_engine /\
  db (snd (bind create_connection (fun _ => get_pets) (demo_env two_pets)
             stale_state)) = Some demo_engine /\
  checked_out (snd (bind create_connection (fun _ => get_pets)
                      (demo_env two_pets) stale_state)) = 0.
Proof.
  split; [reflexivity|]. split; [discriminate|].
  destruct (view_uses_the_pool_just_built (demo_env two_pets) stale_state
              demo_engine eq_refl)
    as (_ & Hdb & Hout & _).
  now split.
Defined.

(** X5 at the deployment that may not read its secrets, followed by a
    request to the healthy one. *)
Lemma failed_initialisation_leaves_the_view_as_it_was_witness :
  fst (create_connection forbidden_env fresh_state)
  = Raise (ExternalError "PermissionDenied") /\
  db fresh_state = None /\
  fst (get_pets (demo_env two_pets)
         (snd (create_connection forbidden_env fresh_state)))
  = Raise (NameError "db").
Proof.
  split; [reflexivity|]. split; [reflexivity|].
  exact (proj1 (proj2 (failed_initialisation_leaves_the_view_as_it_was
                         forbidden_env (demo_env two_pets) fresh_state _
                         eq_refl)
                  eq_refl)).
Defined.

(** X6 at the statement of a request to the healthy deployment. *)
Lemma statements_run_inside_the_connection_witness :
  calls_since ready_state (snd (get_pets (demo_env two_pets) ready_state))
  = [(EvConnect, None)] ++ (EvExecute pets_query, None)
    :: [(EvFetchall, None); (EvClose, None)] /\
  uses_connection (EvExecute pets_query, None) /\
  In (EvConnect, @None exn) [(EvConnect, None)] /\
  count is_close [(EvConnect, @None exn)] = 0 /\
  In (EvClose, @None exn) [(EvFetchall, None); (EvClose, None)].
Proof.
  assert (Huse : uses_connection (EvExecute pets_query, None)).
  { left. now exists pets_query. }
  split; [reflexivity|]. split; [exact Huse|].
  exact (statements_run_inside_the_connection (demo_env two_pets) ready_state
           [(EvConnect, None)] (EvExecute pets_query, None)
           [(EvFetchall, None); (EvClose, None)] eq_refl Huse).
Defined.

